(** * squirrels-sift: the emissions estimator and the npm batch handler

    A shallow embedding of [analyzer.js] (the estimator, present in the
    repository in two revisions that differ in one default constant) and of
    [npmPackagesHandler] from [index.js].

    JavaScript numbers are IEEE 754 binary64 values.  They are modelled by
    [spec_float] with precision 53 and maximal exponent 1024, the inductive
    specification of floating-point arithmetic of the Standard Library, so
    that every operation of the source is evaluated with its rounding. *)

From Stdlib Require Import ZArith Bool List String Lia.
From Stdlib Require Import Floats.SpecFloat.
Import ListNotations.

Local Open Scope Z_scope.

(** ** JavaScript numbers *)

Module Num.

Definition prec : Z := 53.
Definition emax : Z := 1024.

Definition number : Type := spec_float.

Definition add : number -> number -> number := SFadd prec emax.
Definition mul : number -> number -> number := SFmul prec emax.
Definition div : number -> number -> number := SFdiv prec emax.

(** [x == y] on numbers: [NaN] is equal to nothing, [-0 == +0]. *)
Definition eqb : number -> number -> bool := SFeqb.
Definition ltb : number -> number -> bool := SFltb.
Definition leb : number -> number -> bool := SFleb.

Definition NaN : number := S754_nan.
Definition Infinity : number := S754_infinity false.
Definition zero : number := S754_zero false.
Definition neg_zero : number := S754_zero true.

Definition is_nan (x : number) : bool :=
  match x with S754_nan => true | _ => false end.

(** A binary64 datum: a canonical mantissa within the exponent range. *)
Definition valid (x : number) : bool := valid_binary prec emax x.

Definition is_finite (x : number) : bool :=
  match x with
  | S754_zero _ | S754_finite _ _ _ => true
  | _ => false
  end.

Definition sign (x : number) : bool :=
  match x with
  | S754_zero s | S754_infinity s | S754_finite s _ _ => s
  | S754_nan => false
  end.

(** The number denoted by an integer literal. *)
Definition of_Z (n : Z) : number := binary_normalize prec emax n 0 false.

(** The number denoted by the decimal literal [n / 10^k]: the quotient of
    two exactly represented integers is rounded once, to the nearest
    binary64 value. *)
Definition dec (n : Z) (k : Z) : number := div (of_Z n) (of_Z (10 ^ k)).

(** [Number.EPSILON] is [2^-52]. *)
Definition EPSILON : number := S754_finite false (2 ^ 52) (-104).

(** [Math.round]: the nearest integer, a tie going towards [+Infinity];
    integers, zeros, infinities and [NaN] are returned as they are, and a
    negative argument that rounds to zero gives [-0]. *)
Definition round (x : number) : number :=
  match x with
  | S754_finite s m e =>
      if 0 <=? e then x
      else
        let n := (2 * cond_Zopp s (Zpos m) + 2 ^ (- e)) / 2 ^ (1 - e) in
        binary_normalize prec emax n 0 s
  | _ => x
  end.

(** [undefined] converted to a number is [NaN]. *)
Definition of_option (o : option number) : number :=
  match o with Some x => x | None => NaN end.

End Num.

Import Num.

Declare Scope num_scope.
Delimit Scope num_scope with num.
Infix "+" := add : num_scope.
Infix "*" := mul : num_scope.
Infix "/" := div : num_scope.
Infix "==" := eqb (at level 70, no associativity) : num_scope.

(** ** analyzer.js *)

Definition to2fR (float : number) : number :=
  (round ((float + EPSILON) * of_Z 100) / of_Z 100)%num.

Definition to6fR (float : number) : number :=
  (round ((float + EPSILON) * of_Z 1000000) / of_Z 1000000)%num.

Definition KWH_PER_GB : number := dec 81 2.

(** A table is a JavaScript object whose properties are numbers, kept as the
    list of its properties in the order [for ... in] enumerates them. *)
Definition table : Type := list (string * number).

Fixpoint get (t : table) (key : string) : option number :=
  match t with
  | [] => None
  | (k, v) :: rest => if String.eqb k key then Some v else get rest key
  end.

Definition _gridIntensities : table :=
  [ ("dataCenter", of_Z 50);
    ("network", dec 43726 2);
    ("device", dec 43726 2);
    ("production", dec 43726 2) ]%string.

Record EmissionsEstimate : Type := {
  totalCo2EmissionsWeekKg : number;
  consumedkWh : number
}.

(** The loop [for (const part in gridIntensities)] with its accumulator. *)
Definition blend_step (contributions : table) (acc : number)
    (entry : string * number) : number :=
  let part := fst entry in
  let intensity := snd entry in
  let contribution := (of_option (get contributions part) / of_Z 100)%num in
  (acc + intensity * contribution)%num.

Definition totalCo2PerGb (gridIntensities contributions : table) : number :=
  fold_left (blend_step contributions) gridIntensities (of_Z 0).

Definition sizeGb (sizeKb : number) : number := (sizeKb / of_Z 1000000)%num.

Definition calculateCO2Emissions (sizeKb downloads : number)
    (gridIntensities contributions : table) : EmissionsEstimate :=
  let sizeGb := sizeGb sizeKb in
  let totalCo2PerGb := totalCo2PerGb gridIntensities contributions in
  let co2EmissionsPerDownloadG := (sizeGb * totalCo2PerGb)%num in
  let totalCo2EmissionsWeekG := (co2EmissionsPerDownloadG * downloads)%num in
  let totalCo2EmissionsWeekKg := (totalCo2EmissionsWeekG / of_Z 1000)%num in
  {| totalCo2EmissionsWeekKg := totalCo2EmissionsWeekKg;
     consumedkWh := (sizeGb * KWH_PER_GB)%num |}.

Record WeeklyReport : Type := {
  report_consumedkWh : number;
  kg : number;
  t : number
}.

(** [emissionPerWeek] calls the estimator with the default tables of its
    module; the two revisions of the module differ in [_contributions]. *)
Definition emissionPerWeek_with (contributions : table)
    (sizeKb downloadsLastWeek : number) : WeeklyReport :=
  let emissions :=
    calculateCO2Emissions sizeKb downloadsLastWeek _gridIntensities contributions in
  {| report_consumedkWh := to6fR (consumedkWh emissions * downloadsLastWeek)%num;
     kg := to6fR (totalCo2EmissionsWeekKg emissions);
     t := to2fR (totalCo2EmissionsWeekKg emissions / of_Z 1000)%num |}.

(** The revision whose data-centre share is 15. *)
Module Rev15.
Definition _contributions : table :=
  [ ("dataCenter", of_Z 15); ("network", of_Z 14);
    ("device", of_Z 53); ("production", of_Z 19) ]%string.
Definition emissionPerWeek : number -> number -> WeeklyReport :=
  emissionPerWeek_with _contributions.
End Rev15.

(** The documented revision, whose data-centre share is 14. *)
Module Rev14.
Definition _contributions : table :=
  [ ("dataCenter", of_Z 14); ("network", of_Z 14);
    ("device", of_Z 53); ("production", of_Z 19) ]%string.
Definition emissionPerWeek : number -> number -> WeeklyReport :=
  emissionPerWeek_with _contributions.
End Rev14.

(** ** index.js: the batch handler *)

(** The outcome of one promise, as [Promise.allSettled] reports it. *)
Inductive settled (A : Type) : Type :=
  | Fulfilled (value : A)
  | Rejected (reason : string).
Arguments Fulfilled {A} value.
Arguments Rejected {A} reason.

(** A property of an object: not set, set to [null], or set to a value. *)
Inductive prop (A : Type) : Type :=
  | Undefined
  | Null
  | Value (a : A).
Arguments Undefined {A}.
Arguments Null {A}.
Arguments Value {A} a.

(** A listing [{ name, version }]; [version] may be missing. *)
Record Listing : Type := {
  listing_name : string;
  listing_version : option string
}.

(** What a fulfilled download-stat lookup carries: [value.body.downloads],
    [None] when the body has no such property.  A fulfilled lookup is an
    object with a [body] object, as the stat service answers. *)
Record StatValue : Type := { downloads : option number }.

(** What a fulfilled size lookup carries: [value.size]. *)
Record DetailsValue : Type := { size : option number }.

Record Result : Type := {
  name : string;
  version : string;
  stat : prop StatValue;
  details : prop DetailsValue;
  error : option string;
  emissionsPerWeek : option WeeklyReport
}.

Definition set_stat (v : prop StatValue) (r : Result) : Result :=
  {| name := name r; version := version r; stat := v; details := details r;
     error := error r; emissionsPerWeek := emissionsPerWeek r |}.

Definition set_details (v : prop DetailsValue) (r : Result) : Result :=
  {| name := name r; version := version r; stat := stat r; details := v;
     error := error r; emissionsPerWeek := emissionsPerWeek r |}.

Definition set_error (reason : string) (r : Result) : Result :=
  {| name := name r; version := version r; stat := stat r; details := details r;
     error := Some reason; emissionsPerWeek := emissionsPerWeek r |}.

Definition set_emissionsPerWeek (w : WeeklyReport) (r : Result) : Result :=
  {| name := name r; version := version r; stat := stat r; details := details r;
     error := error r; emissionsPerWeek := Some w |}.

(** [Promise.all]: the values in order, or the first rejection. *)
Fixpoint promise_all {A : Type} (ps : list (settled A)) : settled (list A) :=
  match ps with
  | [] => Fulfilled []
  | Rejected reason :: _ => Rejected reason
  | Fulfilled v :: rest =>
      match promise_all rest with
      | Fulfilled vs => Fulfilled (v :: vs)
      | Rejected reason => Rejected reason
      end
  end.

Section Handler.

(** [emissionPerWeek] as imported from the analyzer module. *)
Variable emissionPerWeek : number -> number -> WeeklyReport.

(** The two external lookups, by the outcome each one settles with. *)
Variable npm_stat : string -> settled StatValue.
Variable fetch_details : string -> string -> settled DetailsValue.

(** [result.stat?.body.downloads] *)
Definition stat_downloads (s : prop StatValue) : option number :=
  match s with
  | Value v => downloads v
  | _ => None
  end.

(** The callback given to [Promise.allSettled(...).then]. *)
Definition on_settled (ignoreDownloads : bool) (name version : string)
    (statResult : settled StatValue) (detailsResult : settled DetailsValue)
    : Result :=
  let result :=
    {| name := name; version := version; stat := Undefined;
       details := Undefined; error := None; emissionsPerWeek := None |} in
  let result :=
    match statResult with
    | Fulfilled value => set_stat (Value value) result
    | Rejected reason => set_error reason (set_stat Null result)
    end in
  let result :=
    match detailsResult with
    | Fulfilled value =>
        let result := set_details (Value value) result in
        set_emissionsPerWeek
          (emissionPerWeek
             (of_option (size value) / of_Z 1000)%num
             (if ignoreDownloads then of_Z 1
              else of_option (stat_downloads (stat result))))
          result
    | Rejected reason => set_error reason (set_details Null result)
    end in
  result.

(** One element of [promises]: [Promise.allSettled] always fulfils, and
    the callback returns, so the promise fulfils with the callback's
    result. *)
Definition package_promise (ignoreDownloads : bool) (l : Listing)
    : settled Result :=
  let name := listing_name l in
  let version :=
    match listing_version l with Some v => v | None => "latest"%string end in
  let statPromise := npm_stat name in
  let detailsPromise := fetch_details name version in
  Fulfilled (on_settled ignoreDownloads name version statPromise detailsPromise).

Definition npmPackagesHandler (npmPackageVersionListings : list Listing)
    (ignoreDownloads : bool) : settled (list Result) :=
  let promises := map (package_promise ignoreDownloads) npmPackageVersionListings in
  promise_all promises.

End Handler.

(** ** index.js: the report and the two entry points *)

From Stdlib Require Import Ascii.
Import Num.

(** [Math.floor]: the greatest integer not above the argument; integers,
    zeros, infinities and [NaN] are returned as they are. *)
Definition floor (x : number) : number :=
  match x with
  | S754_finite s m e =>
      if 0 <=? e then x
      else binary_normalize prec emax (cond_Zopp s (Zpos m) / 2 ^ (- e)) 0 s
  | _ => x
  end.

(** [{ start, end }], two dates in ISO form. *)
Record Timespan : Type := {
  timespan_start : string;
  timespan_end : string
}.

(** The options the handlers read. *)
Record Options : Type := {
  baseTime : Timespan;
  npm : string;
  out : string;
  condensed : bool
}.

Module Condensed.

(** The object [obj] pushed for each package. *)
Record Detail : Type := {
  name : string;
  version : string;
  emissions_kg : number;
  consumption_kWh : number
}.

(** The accumulator of the reduction. *)
Record t : Type := {
  aggregatedEmissions_kg : number;
  aggregated_kWh : number;
  flights_LDN_JFK : number;
  timespan : Timespan;
  details : list Detail
}.

End Condensed.

(** [array.reduce(callback, initialValue)], the callback receiving the
    accumulator, the element and its index. *)
Fixpoint reduce_from {A B : Type} (callback : B -> A -> nat -> B)
    (array : list A) (idx : nat) (acc : B) : B :=
  match array with
  | [] => acc
  | x :: rest => reduce_from callback rest (S idx) (callback acc x idx)
  end.

Definition reduce {A B : Type} (callback : B -> A -> nat -> B)
    (array : list A) (initialValue : B) : B :=
  reduce_from callback array 0 initialValue.

(** [currentPackage?.emissionsPerWeek?.kg ?? 0] *)
Definition package_kg (currentPackage : Result) : number :=
  match emissionsPerWeek currentPackage with
  | Some w => kg w
  | None => of_Z 0
  end.

(** [currentPackage?.emissionsPerWeek?.consumedkWh ?? 0] *)
Definition package_kWh (currentPackage : Result) : number :=
  match emissionsPerWeek currentPackage with
  | Some w => report_consumedkWh w
  | None => of_Z 0
  end.

Definition package_obj (currentPackage : Result) : Condensed.Detail :=
  let emissions_kg := package_kg currentPackage in
  let consumption_kWh := package_kWh currentPackage in
  {| Condensed.name := name currentPackage;
     Condensed.version := version currentPackage;
     Condensed.emissions_kg :=
       if is_nan emissions_kg then of_Z 0 else emissions_kg;
     Condensed.consumption_kWh :=
       if is_nan consumption_kWh then of_Z 0 else consumption_kWh |}.

(** The callback of the reduction in [resultHandler]; [length] is
    [_array.length]. *)
Definition condense_step (length : nat) (acc : Condensed.t)
    (currentPackage : Result) (idx : nat) : Condensed.t :=
  let isLast := Z.of_nat idx =? Z.of_nat length - 1 in
  let obj := package_obj currentPackage in
  let aggregatedEmissions_kg :=
    (Condensed.aggregatedEmissions_kg acc + Condensed.emissions_kg obj)%num in
  let aggregated_kWh :=
    (Condensed.aggregated_kWh acc + Condensed.consumption_kWh obj)%num in
  {| Condensed.aggregatedEmissions_kg := aggregatedEmissions_kg;
     Condensed.aggregated_kWh := aggregated_kWh;
     Condensed.flights_LDN_JFK :=
       if isLast then floor (aggregatedEmissions_kg / of_Z 590)%num
       else Condensed.flights_LDN_JFK acc;
     Condensed.timespan := Condensed.timespan acc;
     Condensed.details := Condensed.details acc ++ [obj] |}.

Definition condense (options : Options) (result : list Result) : Condensed.t :=
  reduce (condense_step (List.length result)) result
    {| Condensed.aggregatedEmissions_kg := of_Z 0;
       Condensed.aggregated_kWh := of_Z 0;
       Condensed.flights_LDN_JFK := of_Z 0;
       Condensed.timespan := baseTime options;
       Condensed.details := [] |}.

(** What [resultHandler] prints and writes: the list as it is, or the
    condensed object. *)
Inductive Report : Type :=
  | Listed (result : list Result)
  | Aggregated (c : Condensed.t).

(** The two effects of [resultHandler]: [console.dir] of a report, and
    [writeFile] of a report, serialised, to the file the [out] option
    names.  Whether the write succeeds is outside the model. *)
Inductive Effect : Type :=
  | ConsoleDir (r : Report)
  | WriteFile (out : string) (r : Report).

(** [resultHandler], by the effects it issues, in order. *)
Definition resultHandler (options : Options) (result : list Result)
    : list Effect :=
  let _result :=
    if condensed options then Aggregated (condense options result)
    else Listed result in
  ConsoleDir _result ::
  (if String.eqb (out options) "" then [] else [WriteFile (out options) _result]).

(** [s.split(',')] *)
Fixpoint split_comma (s : string) : list string :=
  match s with
  | EmptyString => [EmptyString]
  | String c rest =>
      if Ascii.eqb c ","%char then EmptyString :: split_comma rest
      else
        match split_comma rest with
        | segment :: segments => String c segment :: segments
        | [] => [String c EmptyString]
        end
  end.

Section EntryPoints.

Variable emissionPerWeek : number -> number -> WeeklyReport.

(** The stat service, asked for a package between two dates, and the size
    service, asked for a package at a version. *)
Variable npm_stat : string -> string -> string -> settled StatValue.
Variable fetch_details : string -> string -> settled DetailsValue.

(** [npmPackagesHandler(timespan, listings, ignoreDownloads)] *)
Definition packages_in (timespan : Timespan) (listings : list Listing)
    (ignoreDownloads : bool) : settled (list Result) :=
  npmPackagesHandler emissionPerWeek
    (fun name => npm_stat name (timespan_start timespan) (timespan_end timespan))
    fetch_details listings ignoreDownloads.

Definition npmHandler (options : Options) : settled (list Effect) :=
  let npmList :=
    if String.eqb (npm options) "" then [] else split_comma (npm options) in
  match
    packages_in (baseTime options)
      (map (fun n => {| listing_name := n; listing_version := None |}) npmList)
      false
  with
  | Fulfilled co2Listings => Fulfilled (resultHandler options co2Listings)
  | Rejected reason => Rejected reason
  end.

(** [repohandler], from the outcome of reading and parsing [package.json]:
    the entries of its [dependencies], or [None] when it has no such
    property, in which case [Object.entries] throws. *)
Definition repohandler (options : Options)
    (packageJSON : settled (option (list (string * string))))
    : settled (list Effect) :=
  match packageJSON with
  | Rejected reason => Rejected reason
  | Fulfilled None =>
      Rejected "TypeError: Cannot convert undefined or null to object"
  | Fulfilled (Some dependencies) =>
      let npmPackageVersionListings :=
        map (fun entry =>
               {| listing_name := fst entry; listing_version := Some (snd entry) |})
            dependencies in
      match packages_in (baseTime options) npmPackageVersionListings true with
      | Fulfilled result => Fulfilled (resultHandler options result)
      | Rejected reason => Rejected reason
      end
  end.

End EntryPoints.

(** * Properties *)

(** ** Concrete evaluations *)

Definition scenario : EmissionsEstimate :=
  calculateCO2Emissions (of_Z 100000) (of_Z 1000) _gridIntensities Rev15._contributions.

Definition scenario_report : WeeklyReport :=
  Rev15.emissionPerWeek (of_Z 100000) (of_Z 1000).

(** C1, as stated, does not hold on the code: the per-transfer energy of the
    scenario is the binary64 product [0.1 * 0.81], which is not the number
    [0.081]; and the blended figure lies below [383.545] and the weekly
    total below [38.3545], so neither rounds to the stated [383.55] and
    [38.355]. *)
Lemma C1_not_as_stated :
  (consumedkWh scenario == dec 81 3)%num = false /\
  ltb (totalCo2PerGb _gridIntensities Rev15._contributions) (dec 383545 3) = true /\
  ltb (kg scenario_report) (dec 383545 4) = true.
Proof. vm_compute. repeat split. Qed.

(** C1 (amended): for [sizeKb = 100000] and [downloadsLastWeek = 1000] with
    the tables whose data-centre share is 15, [sizeGb] is [0.1], the blended
    [totalCo2PerGb] lies strictly between [383.5435] and [383.5437], the
    per-transfer emissions are [38.35436] g, the weekly total is [38.35436]
    kg and is reported as [kg = 38.35436] and [t = 0.04], the per-transfer
    [consumedkWh] is the product [0.1 * 0.81] computed in binary64, which
    lies strictly between [0.081] and [0.0810000001], and the weekly energy
    is reported as [81]. *)
Theorem C1_scenario :
  sizeGb (of_Z 100000) = dec 1 1 /\
  ltb (dec 3835435 4) (totalCo2PerGb _gridIntensities Rev15._contributions) = true /\
  ltb (totalCo2PerGb _gridIntensities Rev15._contributions) (dec 3835437 4) = true /\
  (sizeGb (of_Z 100000) * totalCo2PerGb _gridIntensities Rev15._contributions)%num
    = dec 3835436 5 /\
  totalCo2EmissionsWeekKg scenario = dec 3835436 5 /\
  kg scenario_report = dec 3835436 5 /\
  t scenario_report = dec 4 2 /\
  consumedkWh scenario = (dec 1 1 * dec 81 2)%num /\
  ltb (dec 81 3) (consumedkWh scenario) = true /\
  ltb (consumedkWh scenario) (dec 810000001 10) = true /\
  report_consumedkWh scenario_report = of_Z 81.
Proof. vm_compute. repeat split. Qed.

(** ** The weekly report *)

(** C3, as stated, does not hold on the code: for a package of 13053344 kB
    downloaded once, the documented revision reports [kg = 5] and [t = 0],
    whereas [round2 (kg / 1000)] is [0.01]. *)
Lemma C3_t_is_not_round2_of_kg :
  let r := Rev14.emissionPerWeek (of_Z 13053344) (of_Z 1) in
  kg r = of_Z 5 /\
  t r = zero /\
  to2fR (kg r / of_Z 1000)%num = dec 1 2 /\
  (t r == to2fR (kg r / of_Z 1000))%num = false.
Proof. vm_compute. repeat split. Qed.

(** C3 (amended): for every [sizeKb] and [downloads], and either default
    table, the report's [t] is [round2] of the estimator's unrounded
    [totalCo2EmissionsWeekKg] divided by 1000, and the report's [kg] is
    [round6] of that same unrounded value. *)
Theorem C3_t_from_unrounded_estimate :
  forall (contributions : table) (sizeKb downloads : number),
    let e := calculateCO2Emissions sizeKb downloads _gridIntensities contributions in
    let r := emissionPerWeek_with contributions sizeKb downloads in
    t r = to2fR (totalCo2EmissionsWeekKg e / of_Z 1000)%num /\
    kg r = to6fR (totalCo2EmissionsWeekKg e).
Proof. intros contributions sizeKb downloads e r. split; reflexivity. Qed.

(** ** The blended figure *)

Lemma add_nan_r (x : number) : (x + NaN)%num = NaN.
Proof. destruct x; reflexivity. Qed.

Lemma add_nan_l (x : number) : (NaN + x)%num = NaN.
Proof. reflexivity. Qed.

Lemma mul_nan_r (x : number) : (x * NaN)%num = NaN.
Proof. destruct x; reflexivity. Qed.

Lemma mul_nan_l (x : number) : (NaN * x)%num = NaN.
Proof. reflexivity. Qed.

Lemma div_nan_l (x : number) : (NaN / x)%num = NaN.
Proof. reflexivity. Qed.

Lemma is_nan_eq (x : number) : is_nan x = true -> x = NaN.
Proof. destruct x; simpl; intros H; try discriminate H; reflexivity. Qed.

Lemma fold_blend_nan (contributions gridIntensities : table) :
  fold_left (blend_step contributions) gridIntensities NaN = NaN.
Proof.
  induction gridIntensities as [|entry rest IH]; cbn [fold_left].
  - reflexivity.
  - replace (blend_step contributions NaN entry) with NaN by reflexivity.
    exact IH.
Qed.

Lemma fold_blend_missing (contributions gridIntensities : table) (part : string) :
  In part (map fst gridIntensities) ->
  get contributions part = None ->
  forall acc, fold_left (blend_step contributions) gridIntensities acc = NaN.
Proof.
  induction gridIntensities as [|[k i] rest IH]; cbn [fold_left map fst In];
    intros Hin Hget acc.
  - contradiction.
  - destruct Hin as [Heq | Hin].
    + subst k.
      replace (blend_step contributions acc (part, i)) with NaN.
      * apply fold_blend_nan.
      * unfold blend_step. cbn [fst snd]. rewrite Hget. cbn [of_option].
        rewrite div_nan_l, mul_nan_r, add_nan_r. reflexivity.
    + apply IH; assumption.
Qed.

Lemma fold_blend_agree (c c' gridIntensities : table) :
  (forall part, In part (map fst gridIntensities) -> get c' part = get c part) ->
  forall acc,
    fold_left (blend_step c') gridIntensities acc
    = fold_left (blend_step c) gridIntensities acc.
Proof.
  induction gridIntensities as [|[k i] rest IH]; cbn [fold_left map fst In];
    intros Hagree acc.
  - reflexivity.
  - rewrite IH by (intros part Hin; apply Hagree; right; exact Hin).
    f_equal. unfold blend_step. cbn [fst snd].
    rewrite (Hagree k) by (left; reflexivity). reflexivity.
Qed.

(** C5: the blended figure starts from 0 and adds, for each category of
    [gridIntensities] in turn, [intensity * (contribution / 100)]; only the
    contributions of the categories of [gridIntensities] are read, so a
    category present only in [contributions] changes nothing and the key
    sets are not compared; the single-category tables [{x:100}], [{x:100}]
    blend to exactly [100]; a category of [gridIntensities] that is missing
    from [contributions] makes the blended figure, and with it the
    emissions, [NaN] for every size and download count. *)
Theorem C5_blended_figure :
  (forall c, totalCo2PerGb [] c = of_Z 0) /\
  (forall gi part intensity c,
      totalCo2PerGb (gi ++ [(part, intensity)]) c
      = (totalCo2PerGb gi c + intensity * (of_option (get c part) / of_Z 100))%num) /\
  (forall gi c c',
      (forall part, In part (map fst gi) -> get c' part = get c part) ->
      totalCo2PerGb gi c' = totalCo2PerGb gi c) /\
  (forall gi c extra v,
      ~ In extra (map fst gi) ->
      totalCo2PerGb gi ((extra, v) :: c) = totalCo2PerGb gi c) /\
  totalCo2PerGb [("x"%string, of_Z 100)] [("x"%string, of_Z 100)] = of_Z 100 /\
  (forall gi c part,
      In part (map fst gi) -> get c part = None ->
      totalCo2PerGb gi c = NaN /\
      forall sizeKb downloads,
        totalCo2EmissionsWeekKg (calculateCO2Emissions sizeKb downloads gi c) = NaN).
Proof.
  split; [reflexivity|].
  split.
  { intros gi part intensity c. unfold totalCo2PerGb.
    rewrite fold_left_app. reflexivity. }
  split.
  { intros gi c c' H. unfold totalCo2PerGb. apply fold_blend_agree, H. }
  split.
  { intros gi c extra v Hnot. unfold totalCo2PerGb. apply fold_blend_agree.
    intros part Hin. simpl.
    destruct (String.eqb_spec extra part) as [Heq|Hne].
    - subst part. contradiction.
    - reflexivity. }
  split; [vm_compute; reflexivity|].
  intros gi c part Hin Hget.
  assert (Hnan : totalCo2PerGb gi c = NaN)
    by (unfold totalCo2PerGb; eapply fold_blend_missing; eassumption).
  split; [exact Hnan|].
  intros sizeKb downloads. unfold calculateCO2Emissions. simpl.
  rewrite Hnan, mul_nan_r, mul_nan_l, div_nan_l. reflexivity.
Qed.

(** The same at concrete tables: [production] is missing from the
    contributions and [extra] is present only there. *)
Lemma C5_blended_figure_witness :
  totalCo2PerGb [("dataCenter"%string, of_Z 50); ("production"%string, of_Z 7)]
                [("dataCenter"%string, of_Z 15)] = NaN /\
  totalCo2PerGb [("x"%string, of_Z 100)]
                [("extra"%string, of_Z 3); ("x"%string, of_Z 100)]
  = totalCo2PerGb [("x"%string, of_Z 100)] [("x"%string, of_Z 100)].
Proof.
  destruct C5_blended_figure as (_ & _ & _ & Hextra & _ & Hmissing).
  split.
  - apply (Hmissing _ _ "production"%string).
    + simpl. right. left. reflexivity.
    + reflexivity.
  - apply Hextra. simpl. intros [H | []]. discriminate H.
Defined.

(** ** The default contribution tables *)

(** The sum of the shares of a table, added in enumeration order. *)
Definition sum_shares (contributions : table) : number :=
  fold_left add (map snd contributions) (of_Z 0).

(** C7: the shares of the documented table (data centre 14) add up to
    exactly 100; the shares of the other revision's table (data centre 15)
    add up to 101. *)
Theorem C7_default_shares :
  sum_shares Rev14._contributions = of_Z 100 /\
  sum_shares Rev15._contributions = of_Z 101 /\
  (sum_shares Rev15._contributions == of_Z 100)%num = false.
Proof. vm_compute. repeat split. Qed.

(** ** The batch handler *)

Section HandlerProperties.

Variable emissionPerWeek : number -> number -> WeeklyReport.
Variable npm_stat : string -> settled StatValue.
Variable fetch_details : string -> string -> settled DetailsValue.

Definition version_of (l : Listing) : string :=
  match listing_version l with Some v => v | None => "latest"%string end.

(** The item the handler builds for one listing. *)
Definition item (ignoreDownloads : bool) (l : Listing) : Result :=
  on_settled emissionPerWeek ignoreDownloads (listing_name l) (version_of l)
    (npm_stat (listing_name l)) (fetch_details (listing_name l) (version_of l)).

Lemma promise_all_fulfilled {A : Type} (vs : list A) :
  promise_all (map Fulfilled vs) = Fulfilled vs.
Proof.
  induction vs as [|v rest IH]; simpl.
  - reflexivity.
  - rewrite IH. reflexivity.
Qed.

Lemma handler_fulfils (listings : list Listing) (ignoreDownloads : bool) :
  npmPackagesHandler emissionPerWeek npm_stat fetch_details listings ignoreDownloads
  = Fulfilled (map (item ignoreDownloads) listings).
Proof.
  unfold npmPackagesHandler.
  rewrite <- promise_all_fulfilled, map_map. reflexivity.
Qed.

Lemma on_settled_name_version ignoreDownloads n v s d :
  name (on_settled emissionPerWeek ignoreDownloads n v s d) = n /\
  version (on_settled emissionPerWeek ignoreDownloads n v s d) = v.
Proof. destruct s, d; split; reflexivity. Qed.

Lemma on_settled_stat_rejected ignoreDownloads n v reason d :
  let r := on_settled emissionPerWeek ignoreDownloads n v (Rejected reason) d in
  stat r = Null /\ exists marker, error r = Some marker.
Proof. destruct d; simpl; split; try reflexivity; eexists; reflexivity. Qed.

Lemma on_settled_details_rejected ignoreDownloads n v s reason :
  let r := on_settled emissionPerWeek ignoreDownloads n v s (Rejected reason) in
  details r = Null /\ error r = Some reason /\ emissionsPerWeek r = None.
Proof. destruct s; simpl; repeat split; reflexivity. Qed.

Lemma on_settled_both_fulfilled ignoreDownloads n v sv dv :
  let r := on_settled emissionPerWeek ignoreDownloads n v (Fulfilled sv) (Fulfilled dv) in
  stat r = Value sv /\ details r = Value dv /\ error r = None.
Proof. simpl. repeat split; reflexivity. Qed.

(** C8: whatever the lookups settle with, the handler fulfils (the batch is
    never rejected) with one item per listing, in the order of the input,
    each carrying the name and the version (or ["latest"]) of its listing;
    an item whose stat lookup was rejected has [stat = null] and an error
    marker, an item whose details lookup was rejected has [details = null]
    and that rejection's reason as its error marker, and an item whose two
    lookups fulfilled carries both values and no error marker. *)
Theorem C8_batch_collects_every_outcome :
  forall (listings : list Listing) (ignoreDownloads : bool),
  exists results,
    npmPackagesHandler emissionPerWeek npm_stat fetch_details listings ignoreDownloads
    = Fulfilled results /\
    List.length results = List.length listings /\
    forall i l, nth_error listings i = Some l ->
      exists r, nth_error results i = Some r /\
        name r = listing_name l /\
        version r = version_of l /\
        (forall reason, npm_stat (listing_name l) = Rejected reason ->
           stat r = Null /\ exists marker, error r = Some marker) /\
        (forall reason,
           fetch_details (listing_name l) (version_of l) = Rejected reason ->
           details r = Null /\ error r = Some reason) /\
        (forall sv dv, npm_stat (listing_name l) = Fulfilled sv ->
           fetch_details (listing_name l) (version_of l) = Fulfilled dv ->
           stat r = Value sv /\ details r = Value dv /\ error r = None).
Proof.
  intros listings ignoreDownloads.
  exists (map (item ignoreDownloads) listings).
  split; [apply handler_fulfils|].
  split; [apply length_map|].
  intros i l Hl. exists (item ignoreDownloads l).
  split; [rewrite nth_error_map, Hl; reflexivity|].
  unfold item.
  destruct (on_settled_name_version ignoreDownloads (listing_name l) (version_of l)
              (npm_stat (listing_name l))
              (fetch_details (listing_name l) (version_of l))) as [Hn Hv].
  split; [exact Hn|]. split; [exact Hv|].
  split; [|split].
  - intros reason Hs. rewrite Hs. apply on_settled_stat_rejected.
  - intros reason Hd. rewrite Hd.
    destruct (on_settled_details_rejected ignoreDownloads (listing_name l)
                (version_of l) (npm_stat (listing_name l)) reason) as (H1 & H2 & _).
    split; assumption.
  - intros sv dv Hs Hd. rewrite Hs, Hd. apply on_settled_both_fulfilled.
Qed.

(** C10: when both lookups of a package are rejected, its item has
    [stat = null], [details = null], no [emissionsPerWeek], and a single
    [error] holding the reason of the details lookup; the reason of the stat
    lookup, assigned first, is overwritten, so it is not the item's error
    unless both reasons coincide. *)
Theorem C10_stat_reason_overwritten :
  forall (ignoreDownloads : bool) (l : Listing) (stat_reason details_reason : string),
    npm_stat (listing_name l) = Rejected stat_reason ->
    fetch_details (listing_name l) (version_of l) = Rejected details_reason ->
    let r := item ignoreDownloads l in
    stat r = Null /\ details r = Null /\ emissionsPerWeek r = None /\
    error r = Some details_reason /\
    (stat_reason <> details_reason -> error r <> Some stat_reason) /\
    (exists results,
        npmPackagesHandler emissionPerWeek npm_stat fetch_details [l] ignoreDownloads
        = Fulfilled results /\ results = [r]).
Proof.
  intros ignoreDownloads l stat_reason details_reason Hs Hd r.
  assert (Hr : r = on_settled emissionPerWeek ignoreDownloads (listing_name l)
                     (version_of l) (Rejected stat_reason) (Rejected details_reason))
    by (unfold r, item; rewrite Hs, Hd; reflexivity).
  repeat split; try (rewrite Hr; reflexivity).
  - intros Hne Heq. rewrite Hr in Heq. simpl in Heq.
    apply Hne. congruence.
  - exists [r]. split; [|reflexivity].
    rewrite handler_fulfils. reflexivity.
Qed.

End HandlerProperties.

(** ** Where [NaN] can come from *)

Lemma shr_1_nonneg (rs : shr_record) : 0 <= shr_m rs -> 0 <= shr_m (shr_1 rs).
Proof.
  destruct rs as [m r s]. cbn [shr_m]. intros Hm.
  destruct m as [|[p|p|]|p]; cbn [shr_1 shr_m]; lia.
Qed.

Lemma iter_shr_1_nonneg (p : positive) :
  forall rs, 0 <= shr_m rs -> 0 <= shr_m (iter_pos shr_1 p rs).
Proof.
  induction p as [p IH|p IH|]; intros rs H; cbn [iter_pos].
  - apply IH, IH, shr_1_nonneg, H.
  - apply IH, IH, H.
  - apply shr_1_nonneg, H.
Qed.

Lemma shr_fexp_nonneg (m e : Z) (l : location) :
  0 <= m -> 0 <= shr_m (fst (shr_fexp prec emax m e l)).
Proof.
  intros Hm. unfold shr_fexp, shr.
  assert (H0 : 0 <= shr_m (shr_record_of_loc m l)) by (destruct l as [|[]]; exact Hm).
  destruct (fexp prec emax (Zdigits2 m + e) - e); cbn [fst]; try exact H0.
  apply iter_shr_1_nonneg, H0.
Qed.

Lemma round_nearest_even_nonneg (m : Z) (l : location) :
  0 <= m -> 0 <= round_nearest_even m l.
Proof.
  intros Hm. destruct l as [|[]]; cbn [round_nearest_even]; try lia.
  destruct (Z.even m); lia.
Qed.

(** Rounding a non-negative mantissa gives a zero, a finite number or an
    infinity. *)
Lemma binary_round_aux_not_nan (s : bool) (mx ex : Z) (lx : location) :
  0 <= mx -> is_nan (binary_round_aux prec emax s mx ex lx) = false.
Proof.
  intros Hmx. unfold binary_round_aux.
  pose proof (shr_fexp_nonneg mx ex lx Hmx) as H1.
  destruct (shr_fexp prec emax mx ex lx) as [mrs' e']. cbn [fst] in H1.
  pose proof (shr_fexp_nonneg _ e' loc_Exact
                (round_nearest_even_nonneg _ (loc_of_shr_record mrs') H1)) as H2.
  destruct (shr_fexp prec emax
              (round_nearest_even (shr_m mrs') (loc_of_shr_record mrs')) e' loc_Exact)
    as [mrs'' e'']. cbn [fst] in H2.
  destruct (shr_m mrs'') as [|p|p]; try lia.
  - reflexivity.
  - destruct (e'' <=? emax - prec); reflexivity.
Qed.

Lemma binary_normalize_not_nan (m e : Z) (s : bool) :
  is_nan (binary_normalize prec emax m e s) = false.
Proof.
  destruct m as [|p|p]; cbn [binary_normalize]; try reflexivity;
    unfold binary_round;
    destruct (shl_align p e (fexp prec emax (Z.pos (digits2_pos p) + e))) as [mz ez];
    apply binary_round_aux_not_nan; lia.
Qed.

Definition is_infinite (x : number) : bool :=
  match x with S754_infinity _ => true | _ => false end.

(** A sum is [NaN] only if a summand is, or if the summands are the two
    infinities. *)
Lemma add_not_nan (x y : number) :
  is_nan x = false -> is_nan y = false -> is_infinite y = false ->
  is_nan (x + y)%num = false.
Proof.
  destruct x as [sx|sx| |sx mx ex], y as [sy|sy| |sy my ey];
    cbn [is_nan is_infinite]; intros Hx Hy Hi; try discriminate;
    try reflexivity.
  - destruct sx, sy; reflexivity.
  - apply binary_normalize_not_nan.
Qed.

Lemma div_eucl_nonneg (a b : Z) : 0 <= a -> 0 < b -> 0 <= fst (Z.div_eucl a b).
Proof.
  intros Ha Hb. change (fst (Z.div_eucl a b)) with (a / b).
  apply Z.div_pos; assumption.
Qed.

Lemma SFdiv_core_binary_nonneg (m1 m2 : positive) (e1 e2 : Z) :
  0 <= fst (fst (SFdiv_core_binary prec emax (Zpos m1) e1 (Zpos m2) e2)).
Proof.
  unfold SFdiv_core_binary.
  match goal with
  | |- context [IntDef.Z.div_eucl ?a ?b] =>
      pose proof (div_eucl_nonneg a b) as Hq;
      destruct (IntDef.Z.div_eucl a b) as [q r]
  end.
  cbn [fst] in *. apply Hq; [|lia].
  match goal with
  | |- 0 <= match ?n with _ => _ end => destruct n as [|p|p] eqn:Hn
  end; try lia.
  change (0 <= Z.shiftl (Z.pos m1) (Z.pos p)).
  rewrite Z.shiftl_mul_pow2 by lia.
  apply Z.mul_nonneg_nonneg; [lia|]. apply Z.pow_nonneg. lia.
Qed.

(** A quotient by a finite non-zero number is [NaN] only if the dividend
    is. *)
Lemma div_finite_not_nan (x : number) (s : bool) (m : positive) (e : Z) :
  is_nan x = false -> is_nan (x / S754_finite s m e)%num = false.
Proof.
  destruct x as [sx|sx| |sx mx ex]; cbn [is_nan]; intros Hx;
    try discriminate; try reflexivity.
  unfold div, SFdiv.
  pose proof (SFdiv_core_binary_nonneg mx m ex e) as Hq.
  destruct (SFdiv_core_binary prec emax (Z.pos mx) ex (Z.pos m) e) as [[mz ez] lz].
  cbn [fst] in Hq. apply binary_round_aux_not_nan, Hq.
Qed.

Lemma floor_not_nan (x : number) : is_nan x = false -> is_nan (floor x) = false.
Proof.
  destruct x as [sx|sx| |sx mx ex]; cbn [is_nan floor]; intros Hx;
    try discriminate; try reflexivity.
  destruct (0 <=? ex); [reflexivity|apply binary_normalize_not_nan].
Qed.

(** ** The condensed report *)

Section CondenseInvariants.

Variable len : nat.

Lemma condense_from_details (l : list Result) :
  forall idx acc,
    Condensed.details (reduce_from (condense_step len) l idx acc)
    = Condensed.details acc ++ map package_obj l.
Proof.
  induction l as [|r rest IH]; intros idx acc; cbn [reduce_from map].
  - rewrite app_nil_r. reflexivity.
  - rewrite IH. cbn [condense_step Condensed.details].
    rewrite <- app_assoc. reflexivity.
Qed.

Lemma condense_from_kg (l : list Result) :
  forall idx acc,
    Condensed.aggregatedEmissions_kg (reduce_from (condense_step len) l idx acc)
    = fold_left add (map Condensed.emissions_kg (map package_obj l))
        (Condensed.aggregatedEmissions_kg acc).
Proof.
  induction l as [|r rest IH]; intros idx acc; cbn [reduce_from map fold_left].
  - reflexivity.
  - rewrite IH. reflexivity.
Qed.

Lemma condense_from_kWh (l : list Result) :
  forall idx acc,
    Condensed.aggregated_kWh (reduce_from (condense_step len) l idx acc)
    = fold_left add (map Condensed.consumption_kWh (map package_obj l))
        (Condensed.aggregated_kWh acc).
Proof.
  induction l as [|r rest IH]; intros idx acc; cbn [reduce_from map fold_left].
  - reflexivity.
  - rewrite IH. reflexivity.
Qed.

Lemma condense_from_timespan (l : list Result) :
  forall idx acc,
    Condensed.timespan (reduce_from (condense_step len) l idx acc)
    = Condensed.timespan acc.
Proof.
  induction l as [|r rest IH]; intros idx acc; cbn [reduce_from].
  - reflexivity.
  - rewrite IH. reflexivity.
Qed.

(** Once the element of index [len - 1] has been visited, the flights are
    the floor of the final total over 590. *)
Lemma condense_from_flights (l : list Result) :
  forall idx acc,
    (idx + List.length l = len)%nat -> l <> [] ->
    let c := reduce_from (condense_step len) l idx acc in
    Condensed.flights_LDN_JFK c
    = floor (Condensed.aggregatedEmissions_kg c / of_Z 590)%num.
Proof.
  induction l as [|r rest IH]; intros idx acc Hlen Hne; [contradiction|].
  destruct rest as [|r' rest'].
  - cbn [reduce_from condense_step Condensed.flights_LDN_JFK
           Condensed.aggregatedEmissions_kg].
    cbn [List.length] in Hlen.
    replace (Z.of_nat idx =? Z.of_nat len - 1) with true
      by (symmetry; apply Z.eqb_eq; lia).
    reflexivity.
  - cbn [reduce_from]. apply IH.
    + cbn [List.length] in *. lia.
    + discriminate.
Qed.

(** The reduction reads of each package only the object it pushes. *)
Lemma condense_from_ext (l l' : list Result) :
  map package_obj l = map package_obj l' ->
  forall idx acc,
    reduce_from (condense_step len) l idx acc
    = reduce_from (condense_step len) l' idx acc.
Proof.
  revert l'. induction l as [|r rest IH]; intros [|r' rest'] Heq idx acc;
    cbn [map] in Heq; try discriminate Heq.
  - reflexivity.
  - pose proof (f_equal (@tl _) Heq) as Hrest. cbn [tl] in Hrest.
    pose proof (f_equal (hd (package_obj r)) Heq) as Hobj. cbn [hd] in Hobj.
    cbn [reduce_from].
    replace (condense_step len acc r' idx) with (condense_step len acc r idx)
      by (unfold condense_step; rewrite Hobj; reflexivity).
    apply IH, Hrest.
Qed.

End CondenseInvariants.

Lemma package_obj_not_nan (r : Result) :
  is_nan (Condensed.emissions_kg (package_obj r)) = false /\
  is_nan (Condensed.consumption_kWh (package_obj r)) = false.
Proof.
  unfold package_obj. cbn [Condensed.emissions_kg Condensed.consumption_kWh].
  split.
  - destruct (is_nan (package_kg r)) eqn:H; [reflexivity|exact H].
  - destruct (is_nan (package_kWh r)) eqn:H; [reflexivity|exact H].
Qed.

(** X1: the condensed report lists every package of the result exactly
    once and in the order of the result, with its name and version, whether
    its lookups succeeded or not, and keeps the time span of the options. *)
Theorem condensed_lists_every_package :
  forall (options : Options) (result : list Result),
    let c := condense options result in
    Condensed.details c = map package_obj result /\
    List.length (Condensed.details c) = List.length result /\
    map Condensed.name (Condensed.details c) = map name result /\
    map Condensed.version (Condensed.details c) = map version result /\
    Condensed.timespan c = baseTime options.
Proof.
  intros options result c.
  assert (Hd : Condensed.details c = map package_obj result)
    by (unfold c, condense, reduce; rewrite condense_from_details; reflexivity).
  split; [exact Hd|]. rewrite Hd.
  split; [apply length_map|].
  split; [rewrite map_map; reflexivity|].
  split; [rewrite map_map; reflexivity|].
  unfold c, condense, reduce. rewrite condense_from_timespan. reflexivity.
Qed.


(** X3: the two totals of the condensed report are the sums, added from 0
    in list order, of the figures its details list shows. *)
Theorem condensed_totals_sum_the_details :
  forall (options : Options) (result : list Result),
    let c := condense options result in
    Condensed.aggregatedEmissions_kg c
    = fold_left add (map Condensed.emissions_kg (Condensed.details c)) (of_Z 0) /\
    Condensed.aggregated_kWh c
    = fold_left add (map Condensed.consumption_kWh (Condensed.details c)) (of_Z 0).
Proof.
  intros options result c. unfold c, condense, reduce.
  rewrite condense_from_details, condense_from_kg, condense_from_kWh.
  split; reflexivity.
Qed.

Lemma condense_flights (options : Options) (result : list Result) :
  Condensed.flights_LDN_JFK (condense options result)
  = floor (Condensed.aggregatedEmissions_kg (condense options result) / of_Z 590)%num.
Proof.
  unfold condense, reduce.
  destruct result as [|r rest].
  - reflexivity.
  - apply condense_from_flights; [reflexivity|discriminate].
Qed.

(** X4: for every result, the empty one included, the flights figure of the
    condensed report is [Math.floor] of the final emissions total divided
    by 590, although it is assigned only while the last package is
    visited. *)
Theorem condensed_flights_from_final_total :
  forall (options : Options) (result : list Result),
    let c := condense options result in
    Condensed.flights_LDN_JFK c
    = floor (Condensed.aggregatedEmissions_kg c / of_Z 590)%num.
Proof.
  intros options result c. unfold c, condense, reduce.
  destruct result as [|r rest].
  - reflexivity.
  - apply condense_from_flights; [reflexivity|discriminate].
Qed.

Lemma fold_add_not_nan (l : list number) :
  forall acc,
    is_nan acc = false ->
    (forall x, In x l -> is_nan x = false /\ is_infinite x = false) ->
    is_nan (fold_left add l acc) = false.
Proof.
  induction l as [|x rest IH]; intros acc Hacc Hl; cbn [fold_left].
  - exact Hacc.
  - apply IH.
    + destruct (Hl x (or_introl eq_refl)) as [Hn Hi].
      apply add_not_nan; assumption.
    + intros y Hy. apply Hl. right. exact Hy.
Qed.

Lemma div_590_not_nan (x : number) :
  is_nan x = false -> is_nan (x / of_Z 590)%num = false.
Proof.
  let v := eval vm_compute in (of_Z 590) in change (of_Z 590) with v.
  apply div_finite_not_nan.
Qed.

(** X5: when no package's weekly figures are infinite, neither total of the
    condensed report is [NaN], and neither is the flights figure (a total
    may still overflow to an infinity). *)
Theorem condensed_totals_not_nan :
  forall (options : Options) (result : list Result),
    (forall r, In r result ->
       is_infinite (package_kg r) = false /\ is_infinite (package_kWh r) = false) ->
    let c := condense options result in
    is_nan (Condensed.aggregatedEmissions_kg c) = false /\
    is_nan (Condensed.aggregated_kWh c) = false /\
    is_nan (Condensed.flights_LDN_JFK c) = false.
Proof.
  intros options result Hfin c.
  assert (Hkg : is_nan (Condensed.aggregatedEmissions_kg c) = false).
  { unfold c, condense, reduce. rewrite condense_from_kg.
    apply fold_add_not_nan; [reflexivity|].
    intros x Hx. apply in_map_iff in Hx. destruct Hx as (d & <- & Hd).
    apply in_map_iff in Hd. destruct Hd as (r & <- & Hr).
    split; [apply package_obj_not_nan|].
    destruct (Hfin r Hr) as [Hi _].
    unfold package_obj. cbn [Condensed.emissions_kg].
    destruct (is_nan (package_kg r)); [reflexivity|exact Hi]. }
  split; [exact Hkg|]. split.
  - unfold c, condense, reduce. rewrite condense_from_kWh.
    apply fold_add_not_nan; [reflexivity|].
    intros x Hx. apply in_map_iff in Hx. destruct Hx as (d & <- & Hd).
    apply in_map_iff in Hd. destruct Hd as (r & <- & Hr).
    split; [apply package_obj_not_nan|].
    destruct (Hfin r Hr) as [_ Hi].
    unfold package_obj. cbn [Condensed.consumption_kWh].
    destruct (is_nan (package_kWh r)); [reflexivity|exact Hi].
  - unfold c. rewrite condense_flights.
    apply floor_not_nan, div_590_not_nan, Hkg.
Qed.

(** A package whose lookups both fulfilled, with an infinite weekly total. *)
Definition sample_package (w : WeeklyReport) : Result :=
  {| name := "express"; version := "latest"; stat := Null; details := Null;
     error := None; emissionsPerWeek := Some w |}.

Definition sample_options : Options :=
  {| baseTime := {| timespan_start := "2024-01-02"; timespan_end := "2024-01-31" |};
     npm := "express"; out := ""; condensed := true |}.

Lemma condensed_totals_not_nan_witness :
  let c := condense sample_options
             [sample_package (Rev14.emissionPerWeek (of_Z 100000) (of_Z 1000))] in
  is_nan (Condensed.aggregatedEmissions_kg c) = false /\
  is_nan (Condensed.aggregated_kWh c) = false /\
  is_nan (Condensed.flights_LDN_JFK c) = false.
Proof.
  apply (condensed_totals_not_nan sample_options
           [sample_package (Rev14.emissionPerWeek (of_Z 100000) (of_Z 1000))]).
  intros r [<- | []]. vm_compute. split; reflexivity.
Defined.

Lemma fold_add_zeros (l : list number) :
  (forall x, In x l -> x = of_Z 0) -> fold_left add l (of_Z 0) = of_Z 0.
Proof.
  induction l as [|x rest IH]; intros H; cbn [fold_left].
  - reflexivity.
  - rewrite (H x (or_introl eq_refl)).
    change (of_Z 0 + of_Z 0)%num with (of_Z 0).
    apply IH. intros y Hy. apply H. right. exact Hy.
Qed.

(** A package counts as nothing when it has no weekly report or when the
    figures of its report are [NaN]. *)
Definition counts_as_nothing (r : Result) : Prop :=
  match emissionsPerWeek r with
  | None => True
  | Some w => is_nan (kg w) = true /\ is_nan (report_consumedkWh w) = true
  end.

Lemma counts_as_nothing_obj (r : Result) :
  counts_as_nothing r ->
  package_obj r =
  {| Condensed.name := name r; Condensed.version := version r;
     Condensed.emissions_kg := of_Z 0; Condensed.consumption_kWh := of_Z 0 |}.
Proof.
  unfold counts_as_nothing, package_obj, package_kg, package_kWh.
  destruct (emissionsPerWeek r) as [w|].
  - intros [H1 H2]. rewrite H1, H2. reflexivity.
  - intros _. reflexivity.
Qed.

(** X6: when every package of the result is without a weekly report or has
    only [NaN] figures (every lookup failed, say), and also when the result
    is empty, the condensed report shows totals of exactly 0 and 0
    flights. *)
Theorem condensed_of_failures_is_zero :
  forall (options : Options) (result : list Result),
    (forall r, In r result -> counts_as_nothing r) ->
    let c := condense options result in
    Condensed.aggregatedEmissions_kg c = of_Z 0 /\
    Condensed.aggregated_kWh c = of_Z 0 /\
    Condensed.flights_LDN_JFK c = of_Z 0.
Proof.
  intros options result Hall c.
  assert (Hkg : Condensed.aggregatedEmissions_kg c = of_Z 0).
  { unfold c, condense, reduce. rewrite condense_from_kg.
    apply fold_add_zeros. intros x Hx.
    apply in_map_iff in Hx. destruct Hx as (d & <- & Hd).
    apply in_map_iff in Hd. destruct Hd as (r & <- & Hr).
    rewrite (counts_as_nothing_obj r (Hall r Hr)). reflexivity. }
  split; [exact Hkg|]. split.
  - unfold c, condense, reduce. rewrite condense_from_kWh.
    apply fold_add_zeros. intros x Hx.
    apply in_map_iff in Hx. destruct Hx as (d & <- & Hd).
    apply in_map_iff in Hd. destruct Hd as (r & <- & Hr).
    rewrite (counts_as_nothing_obj r (Hall r Hr)). reflexivity.
  - unfold c in *. rewrite condense_flights, Hkg. reflexivity.
Qed.

Lemma condensed_of_failures_is_zero_witness :
  let failed :=
    {| name := "left-pad"; version := "latest"; stat := Null; details := Null;
       error := Some "not found"%string; emissionsPerWeek := None |} in
  let c := condense sample_options
             [failed; sample_package {| report_consumedkWh := NaN; kg := NaN; t := NaN |}] in
  Condensed.aggregatedEmissions_kg c = of_Z 0 /\
  Condensed.aggregated_kWh c = of_Z 0 /\
  Condensed.flights_LDN_JFK c = of_Z 0.
Proof.
  intros failed.
  apply (condensed_of_failures_is_zero sample_options
           [failed; sample_package {| report_consumedkWh := NaN; kg := NaN; t := NaN |}]).
  intros r [<- | [<- | []]]; cbv; auto.
Defined.

(** ** What a package's item carries *)

Definition nan_report : WeeklyReport :=
  {| report_consumedkWh := NaN; kg := NaN; t := NaN |}.

Lemma to6fR_nan : to6fR NaN = NaN.
Proof. reflexivity. Qed.

Lemma to2fR_nan : to2fR NaN = NaN.
Proof. reflexivity. Qed.

(** An undefined download count makes every figure of the report [NaN]. *)
Lemma emissionPerWeek_with_nan_downloads (c : table) (sizeKb : number) :
  emissionPerWeek_with c sizeKb NaN = nan_report.
Proof.
  unfold emissionPerWeek_with, calculateCO2Emissions.
  cbn [consumedkWh totalCo2EmissionsWeekKg].
  rewrite !mul_nan_r, !div_nan_l, to6fR_nan, to2fR_nan. reflexivity.
Qed.

(** So does an undefined size. *)
Lemma emissionPerWeek_with_nan_size (c : table) (downloads : number) :
  emissionPerWeek_with c NaN downloads = nan_report.
Proof. reflexivity. Qed.

(** The stat service asked about one time span. *)
Definition stat_in (npm_stat : string -> string -> string -> settled StatValue)
    (timespan : Timespan) (name : string) : settled StatValue :=
  npm_stat name (timespan_start timespan) (timespan_end timespan).

Section ItemProperties.

Variable contributions : table.
Variable npm_stat : string -> string -> string -> settled StatValue.
Variable fetch_details : string -> string -> settled DetailsValue.
Variable timespan : Timespan.

#[local] Abbreviation stat_of := (stat_in npm_stat timespan).
#[local] Abbreviation epw := (emissionPerWeek_with contributions).

Lemma packages_in_items (listings : list Listing) (ignoreDownloads : bool) :
  packages_in epw npm_stat fetch_details timespan listings ignoreDownloads
  = Fulfilled (map (item epw stat_of fetch_details ignoreDownloads) listings).
Proof. unfold packages_in. apply handler_fulfils. Qed.



End ItemProperties.

(** A stat service that knows every package but [left-pad], and a size
    service that has a size for every package but [ghost]. *)
Definition sample_stat (name start end_ : string) : settled StatValue :=
  if String.eqb name "left-pad" then Rejected "not found"
  else Fulfilled {| downloads := Some (of_Z 1000) |}.

Definition sample_details (name version : string) : settled DetailsValue :=
  if String.eqb name "ghost" then Fulfilled {| size := None |}
  else Fulfilled {| size := Some (of_Z 4096) |}.

Definition sample_listings : list Listing :=
  [ {| listing_name := "express"; listing_version := None |};
    {| listing_name := "left-pad"; listing_version := Some "1.3.0"%string |};
    {| listing_name := "ghost"; listing_version := None |} ].



(** ** The two entry points *)

Lemma split_comma_not_nil (s : string) : split_comma s <> [].
Proof.
  destruct s as [|c rest]; cbn [split_comma]; [discriminate|].
  destruct (Ascii.eqb c ","); [discriminate|].
  destruct (split_comma rest); discriminate.
Qed.

(** Joining the pieces with commas gives the string back. *)
Lemma concat_split_comma (s : string) : String.concat "," (split_comma s) = s.
Proof.
  induction s as [|c rest IH]; [reflexivity|].
  cbn [split_comma].
  pose proof (split_comma_not_nil rest) as Hne.
  destruct (Ascii.eqb_spec c ",") as [->|Hc].
  - destruct (split_comma rest) as [|seg segs]; [contradiction|].
    change (String.concat "," (EmptyString :: seg :: segs))
      with (String "," (String.concat "," (seg :: segs))).
    rewrite IH. reflexivity.
  - destruct (split_comma rest) as [|seg segs]; [contradiction|].
    destruct segs as [|seg' segs'].
    + cbn [String.concat] in *. rewrite IH. reflexivity.
    + change (String.concat "," (String c seg :: seg' :: segs'))
        with (String c (String.concat "," (seg :: seg' :: segs'))).
      rewrite IH. reflexivity.
Qed.

(** The commas of a string. *)
Fixpoint commas (s : string) : nat :=
  match s with
  | EmptyString => 0
  | String c rest => if Ascii.eqb c "," then S (commas rest) else commas rest
  end.

Lemma length_split_comma (s : string) :
  List.length (split_comma s) = S (commas s).
Proof.
  induction s as [|c rest IH]; [reflexivity|].
  cbn [split_comma commas].
  destruct (Ascii.eqb c ",").
  - cbn [List.length]. rewrite IH. reflexivity.
  - pose proof (split_comma_not_nil rest) as Hne.
    destruct (split_comma rest) as [|seg segs]; [contradiction|].
    exact IH.
Qed.

Section EntryPointProperties.

Variable emissionPerWeek : number -> number -> WeeklyReport.
Variable fetch_details : string -> string -> settled DetailsValue.

Lemma item_name_version st ignoreDownloads (l : Listing) :
  name (item emissionPerWeek st fetch_details ignoreDownloads l) = listing_name l /\
  version (item emissionPerWeek st fetch_details ignoreDownloads l) = version_of l.
Proof. unfold item. apply on_settled_name_version. Qed.

(** With downloads ignored, the weekly report of an item is computed from
    the size alone, with a download count of 1. *)
Lemma item_emissions_ignoring_downloads st (l : Listing) :
  emissionsPerWeek (item emissionPerWeek st fetch_details true l)
  = match fetch_details (listing_name l) (version_of l) with
    | Fulfilled dv =>
        Some (emissionPerWeek (of_option (size dv) / of_Z 1000)%num (of_Z 1))
    | Rejected _ => None
    end.
Proof.
  unfold item, on_settled.
  destruct (st (listing_name l)), (fetch_details (listing_name l) (version_of l));
    reflexivity.
Qed.

Lemma item_obj_ignoring_downloads st st' (l : Listing) :
  package_obj (item emissionPerWeek st fetch_details true l)
  = package_obj (item emissionPerWeek st' fetch_details true l).
Proof.
  unfold package_obj, package_kg, package_kWh.
  rewrite !item_emissions_ignoring_downloads.
  destruct (item_name_version st true l) as [-> ->].
  destruct (item_name_version st' true l) as [-> ->].
  reflexivity.
Qed.

Definition dependency_listing (entry : string * string) : Listing :=
  {| listing_name := fst entry; listing_version := Some (snd entry) |}.


(** X10: with the [condensed] option, what [repohandler] prints and writes
    does not depend on the stat service at all: two stat services, whatever
    they answer or reject, give the same effects. *)
Theorem repohandler_condensed_ignores_stats :
  forall (npm_stat npm_stat' : string -> string -> string -> settled StatValue)
         (options : Options)
         (packageJSON : settled (option (list (string * string)))),
    condensed options = true ->
    repohandler emissionPerWeek npm_stat fetch_details options packageJSON
    = repohandler emissionPerWeek npm_stat' fetch_details options packageJSON.
Proof.
  intros npm_stat npm_stat' options packageJSON Hc.
  destruct packageJSON as [[dependencies|]|reason]; try reflexivity.
  unfold repohandler, packages_in. rewrite !handler_fulfils.
  unfold resultHandler. rewrite Hc.
  assert (Heq : forall r r' : list Result,
             map package_obj r = map package_obj r' ->
             condense options r = condense options r').
  { intros r r' H. unfold condense, reduce.
    assert (Hlen : List.length r = List.length r').
    { rewrite <- (length_map package_obj r), H. apply length_map. }
    rewrite Hlen. apply condense_from_ext, H. }
  rewrite (Heq _ (map (item emissionPerWeek
                         (fun name => npm_stat' name (timespan_start (baseTime options))
                                        (timespan_end (baseTime options)))
                         fetch_details true)
                    (map (fun entry => {| listing_name := fst entry;
                                          listing_version := Some (snd entry) |})
                       dependencies))).
  - reflexivity.
  - rewrite !map_map. apply map_ext. intros entry.
    apply item_obj_ignoring_downloads.
Qed.


End EntryPointProperties.

Lemma repohandler_condensed_ignores_stats_witness :
  repohandler (emissionPerWeek_with Rev14._contributions) sample_stat sample_details
    sample_options (Fulfilled (Some [("left-pad", "^1.3.0"); ("express", "^4.17.1")]%string))
  = repohandler (emissionPerWeek_with Rev14._contributions)
      (fun _ _ _ => Rejected "offline") sample_details
      sample_options (Fulfilled (Some [("left-pad", "^1.3.0"); ("express", "^4.17.1")]%string)).
Proof.
  apply (repohandler_condensed_ignores_stats
           (emissionPerWeek_with Rev14._contributions) sample_details
           sample_stat (fun _ _ _ => Rejected "offline") sample_options).
  reflexivity.
Defined.

(** ** Figures that are never negative *)

(** [nonneg x]: [x] is [+0], a positive number or [+Infinity]. *)
Definition nonneg (x : number) : bool :=
  match x with
  | S754_zero false | S754_infinity false | S754_finite false _ _ => true
  | _ => false
  end.

(** A finite number above zero. *)
Definition positive_finite (x : number) : bool :=
  match x with
  | S754_finite false _ _ => true
  | _ => false
  end.

Lemma binary_round_aux_nonneg (mx ex : Z) (lx : location) :
  0 <= mx -> nonneg (binary_round_aux prec emax false mx ex lx) = true.
Proof.
  intros Hmx. unfold binary_round_aux.
  pose proof (shr_fexp_nonneg mx ex lx Hmx) as H1.
  destruct (shr_fexp prec emax mx ex lx) as [mrs' e']. cbn [fst] in H1.
  pose proof (shr_fexp_nonneg _ e' loc_Exact
                (round_nearest_even_nonneg _ (loc_of_shr_record mrs') H1)) as H2.
  destruct (shr_fexp prec emax
              (round_nearest_even (shr_m mrs') (loc_of_shr_record mrs')) e' loc_Exact)
    as [mrs'' e'']. cbn [fst] in H2.
  destruct (shr_m mrs'') as [|p|p]; try lia.
  - reflexivity.
  - destruct (e'' <=? emax - prec); reflexivity.
Qed.

Lemma binary_normalize_nonneg (m e : Z) :
  0 <= m -> nonneg (binary_normalize prec emax m e false) = true.
Proof.
  intros Hm. destruct m as [|p|p]; try lia; cbn [binary_normalize].
  - reflexivity.
  - unfold binary_round.
    destruct (shl_align p e (fexp prec emax (Z.pos (digits2_pos p) + e))) as [mz ez].
    apply binary_round_aux_nonneg. lia.
Qed.

Lemma add_nonneg (x y : number) :
  nonneg x = true -> nonneg y = true -> nonneg (x + y)%num = true.
Proof.
  destruct x as [[|]|[|]| |[|] mx ex], y as [[|]|[|]| |[|] my ey];
    cbn [nonneg]; intros Hx Hy; try discriminate; try reflexivity.
  unfold add, SFadd. cbn [cond_Zopp].
  apply binary_normalize_nonneg.
  apply Z.add_nonneg_nonneg; apply Pos2Z.is_nonneg.
Qed.

Lemma mul_nonneg (x y : number) :
  nonneg x = true -> positive_finite y = true -> nonneg (x * y)%num = true.
Proof.
  destruct x as [[|]|[|]| |[|] mx ex], y as [[|]|[|]| |[|] my ey];
    cbn [nonneg positive_finite]; intros Hx Hy; try discriminate; try reflexivity.
  unfold mul, SFmul. cbn [xorb]. apply binary_round_aux_nonneg.
  apply Pos2Z.is_nonneg.
Qed.

Lemma div_nonneg (x y : number) :
  nonneg x = true -> positive_finite y = true -> nonneg (x / y)%num = true.
Proof.
  destruct x as [[|]|[|]| |[|] mx ex], y as [[|]|[|]| |[|] my ey];
    cbn [nonneg positive_finite]; intros Hx Hy; try discriminate; try reflexivity.
  unfold div, SFdiv.
  pose proof (SFdiv_core_binary_nonneg mx my ex ey) as Hq.
  destruct (SFdiv_core_binary prec emax (Z.pos mx) ex (Z.pos my) ey) as [[mz ez] lz].
  cbn [fst] in Hq. cbn [xorb]. apply binary_round_aux_nonneg, Hq.
Qed.

Lemma round_nonneg (x : number) : nonneg x = true -> nonneg (round x) = true.
Proof.
  destruct x as [[|]|[|]| |[|] mx ex]; cbn [nonneg]; intros Hx;
    try discriminate; try reflexivity.
  cbn [round]. destruct (Z.leb_spec 0 ex) as [He|He]; [reflexivity|].
  apply binary_normalize_nonneg. cbn [cond_Zopp].
  apply Z.div_pos.
  - assert (0 <= 2 ^ (- ex)) by (apply Z.pow_nonneg; lia). lia.
  - apply Z.pow_pos_nonneg; lia.
Qed.

Lemma floor_nonneg (x : number) : nonneg x = true -> nonneg (floor x) = true.
Proof.
  destruct x as [[|]|[|]| |[|] mx ex]; cbn [nonneg]; intros Hx;
    try discriminate; try reflexivity.
  cbn [floor]. destruct (Z.leb_spec 0 ex) as [He|He]; [reflexivity|].
  apply binary_normalize_nonneg. cbn [cond_Zopp].
  apply Z.div_pos; [lia|]. apply Z.pow_pos_nonneg; lia.
Qed.

Lemma nonneg_not_nan (x : number) : nonneg x = true -> is_nan x = false.
Proof. destruct x as [[|]|[|]| |[|] mx ex]; cbn; intros H; congruence. Qed.

Lemma to6fR_nonneg (x : number) : nonneg x = true -> nonneg (to6fR x) = true.
Proof.
  intros Hx. unfold to6fR.
  apply div_nonneg; [|reflexivity].
  apply round_nonneg, mul_nonneg; [|reflexivity].
  apply add_nonneg; [exact Hx|reflexivity].
Qed.

Lemma to2fR_nonneg (x : number) : nonneg x = true -> nonneg (to2fR x) = true.
Proof.
  intros Hx. unfold to2fR.
  apply div_nonneg; [|reflexivity].
  apply round_nonneg, mul_nonneg; [|reflexivity].
  apply add_nonneg; [exact Hx|reflexivity].
Qed.

(** X12: with contributions that blend to a positive finite figure (both
    default tables do), a size that is zero, positive or [+Infinity] and a
    positive finite download count give a weekly report whose three figures
    are zero, positive or [+Infinity]: none is [NaN], negative or [-0]. *)
Theorem report_of_nonneg_inputs_is_nonneg :
  forall (contributions : table) (sizeKb downloads : number),
    positive_finite (totalCo2PerGb _gridIntensities contributions) = true ->
    nonneg sizeKb = true ->
    positive_finite downloads = true ->
    let r := emissionPerWeek_with contributions sizeKb downloads in
    nonneg (kg r) = true /\
    nonneg (report_consumedkWh r) = true /\
    nonneg (t r) = true.
Proof.
  intros contributions sizeKb downloads Htot Hs Hd r.
  assert (Hgb : nonneg (sizeGb sizeKb) = true)
    by (apply div_nonneg; [exact Hs|reflexivity]).
  assert (Hraw : nonneg (totalCo2EmissionsWeekKg
                           (calculateCO2Emissions sizeKb downloads
                              _gridIntensities contributions)) = true).
  { unfold calculateCO2Emissions. cbn [totalCo2EmissionsWeekKg].
    apply div_nonneg; [|reflexivity].
    apply mul_nonneg; [|exact Hd].
    apply mul_nonneg; [exact Hgb|exact Htot]. }
  unfold r, emissionPerWeek_with. cbn [kg report_consumedkWh t].
  split; [apply to6fR_nonneg, Hraw|].
  split.
  - apply to6fR_nonneg. unfold calculateCO2Emissions. cbn [consumedkWh].
    apply mul_nonneg; [|exact Hd].
    apply mul_nonneg; [exact Hgb|reflexivity].
  - apply to2fR_nonneg, div_nonneg; [exact Hraw|reflexivity].
Qed.

Lemma report_of_nonneg_inputs_is_nonneg_witness :
  let r := emissionPerWeek_with Rev14._contributions Infinity (of_Z 1000) in
  nonneg (kg r) = true /\
  nonneg (report_consumedkWh r) = true /\
  nonneg (t r) = true.
Proof.
  apply (report_of_nonneg_inputs_is_nonneg Rev14._contributions Infinity (of_Z 1000));
    reflexivity.
Defined.

(** A figure that the condensed report takes as zero or above: [NaN]
    (replaced by 0), [+0], a positive number or [+Infinity]. *)
Definition nonneg_or_nan (x : number) : bool := nonneg x || is_nan x.

Lemma fold_add_nonneg (l : list number) :
  forall acc,
    nonneg acc = true ->
    (forall x, In x l -> nonneg x = true) ->
    nonneg (fold_left add l acc) = true.
Proof.
  induction l as [|x rest IH]; intros acc Hacc Hl; cbn [fold_left].
  - exact Hacc.
  - apply IH.
    + apply add_nonneg; [exact Hacc|apply Hl; left; reflexivity].
    + intros y Hy. apply Hl. right. exact Hy.
Qed.

Lemma package_obj_nonneg (r : Result) :
  nonneg_or_nan (package_kg r) = true ->
  nonneg_or_nan (package_kWh r) = true ->
  nonneg (Condensed.emissions_kg (package_obj r)) = true /\
  nonneg (Condensed.consumption_kWh (package_obj r)) = true.
Proof.
  unfold nonneg_or_nan, package_obj.
  cbn [Condensed.emissions_kg Condensed.consumption_kWh].
  intros H1 H2. split.
  - destruct (is_nan (package_kg r)); [reflexivity|].
    rewrite orb_false_r in H1. exact H1.
  - destruct (is_nan (package_kWh r)); [reflexivity|].
    rewrite orb_false_r in H2. exact H2.
Qed.

Lemma condense_nonneg (options : Options) (result : list Result) :
  (forall r, In r result ->
     nonneg_or_nan (package_kg r) = true /\ nonneg_or_nan (package_kWh r) = true) ->
  nonneg (Condensed.aggregatedEmissions_kg (condense options result)) = true /\
  nonneg (Condensed.aggregated_kWh (condense options result)) = true /\
  nonneg (Condensed.flights_LDN_JFK (condense options result)) = true.
Proof.
  intros Hall.
  assert (Hkg : nonneg (Condensed.aggregatedEmissions_kg (condense options result)) = true).
  { unfold condense, reduce. rewrite condense_from_kg.
    apply fold_add_nonneg; [reflexivity|].
    intros x Hx. apply in_map_iff in Hx. destruct Hx as (d & <- & Hd).
    apply in_map_iff in Hd. destruct Hd as (r & <- & Hr).
    destruct (Hall r Hr) as [H1 H2]. apply package_obj_nonneg; assumption. }
  split; [exact Hkg|]. split.
  - unfold condense, reduce. rewrite condense_from_kWh.
    apply fold_add_nonneg; [reflexivity|].
    intros x Hx. apply in_map_iff in Hx. destruct Hx as (d & <- & Hd).
    apply in_map_iff in Hd. destruct Hd as (r & <- & Hr).
    destruct (Hall r Hr) as [H1 H2]. apply package_obj_nonneg; assumption.
  - rewrite condense_flights.
    apply floor_nonneg, div_nonneg; [exact Hkg|reflexivity].
Qed.

(** X13: when every package's weekly figures are [NaN], zero, positive or
    [+Infinity] (packages without a report included), the two totals and the
    flights figure of the condensed report are zero, positive or
    [+Infinity]: never [NaN] and never negative. *)
Theorem condensed_totals_nonneg :
  forall (options : Options) (result : list Result),
    (forall r, In r result ->
       nonneg_or_nan (package_kg r) = true /\ nonneg_or_nan (package_kWh r) = true) ->
    let c := condense options result in
    nonneg (Condensed.aggregatedEmissions_kg c) = true /\
    nonneg (Condensed.aggregated_kWh c) = true /\
    nonneg (Condensed.flights_LDN_JFK c) = true.
Proof.
  intros options result Hall c.
  assert (Hkg : nonneg (Condensed.aggregatedEmissions_kg c) = true).
  { unfold c, condense, reduce. rewrite condense_from_kg.
    apply fold_add_nonneg; [reflexivity|].
    intros x Hx. apply in_map_iff in Hx. destruct Hx as (d & <- & Hd).
    apply in_map_iff in Hd. destruct Hd as (r & <- & Hr).
    destruct (Hall r Hr) as [H1 H2]. apply package_obj_nonneg; assumption. }
  split; [exact Hkg|]. split.
  - unfold c, condense, reduce. rewrite condense_from_kWh.
    apply fold_add_nonneg; [reflexivity|].
    intros x Hx. apply in_map_iff in Hx. destruct Hx as (d & <- & Hd).
    apply in_map_iff in Hd. destruct Hd as (r & <- & Hr).
    destruct (Hall r Hr) as [H1 H2]. apply package_obj_nonneg; assumption.
  - unfold c. rewrite condense_flights.
    apply floor_nonneg, div_nonneg; [exact Hkg|reflexivity].
Qed.

Lemma condensed_totals_nonneg_witness :
  let c := condense sample_options
             [sample_package (Rev14.emissionPerWeek (of_Z 100000) (of_Z 1000));
              sample_package nan_report;
              sample_package (Rev14.emissionPerWeek Infinity (of_Z 1))] in
  nonneg (Condensed.aggregatedEmissions_kg c) = true /\
  nonneg (Condensed.aggregated_kWh c) = true /\
  nonneg (Condensed.flights_LDN_JFK c) = true.
Proof.
  apply (condensed_totals_nonneg sample_options
           [sample_package (Rev14.emissionPerWeek (of_Z 100000) (of_Z 1000));
            sample_package nan_report;
            sample_package (Rev14.emissionPerWeek Infinity (of_Z 1))]).
  intros r [<- | [<- | [<- | []]]]; vm_compute; split; reflexivity.
Defined.

Lemma nonneg_or_nan_cases (x : number) :
  nonneg_or_nan x = true -> x = NaN \/ nonneg x = true.
Proof.
  unfold nonneg_or_nan. intros H. apply orb_true_iff in H.
  destruct H as [H|H]; [right; exact H|left; apply is_nan_eq, H].
Qed.

Lemma nonneg_is_nonneg_or_nan (x : number) :
  nonneg x = true -> nonneg_or_nan x = true.
Proof. unfold nonneg_or_nan. intros ->. reflexivity. Qed.

Lemma add_nonneg_or_nan (x y : number) :
  nonneg_or_nan x = true -> nonneg_or_nan y = true ->
  nonneg_or_nan (x + y)%num = true.
Proof.
  intros Hx Hy.
  destruct (nonneg_or_nan_cases x Hx) as [->|Hx']; [reflexivity|].
  destruct (nonneg_or_nan_cases y Hy) as [->|Hy']; [rewrite add_nan_r; reflexivity|].
  apply nonneg_is_nonneg_or_nan, add_nonneg; assumption.
Qed.

Lemma mul_nonneg_or_nan (x y : number) :
  nonneg_or_nan x = true -> nonneg_or_nan y = true ->
  nonneg_or_nan (x * y)%num = true.
Proof.
  intros Hx Hy.
  destruct (nonneg_or_nan_cases x Hx) as [->|Hx']; [reflexivity|].
  destruct (nonneg_or_nan_cases y Hy) as [->|Hy']; [rewrite mul_nan_r; reflexivity|].
  clear Hx Hy.
  destruct x as [[|]|[|]| |[|] mx ex], y as [[|]|[|]| |[|] my ey];
    cbn [nonneg] in Hx', Hy'; try discriminate; try reflexivity.
  apply nonneg_is_nonneg_or_nan.
  apply (mul_nonneg (S754_finite false mx ex) (S754_finite false my ey));
    reflexivity.
Qed.

Lemma div_nonneg_or_nan (x y : number) :
  nonneg_or_nan x = true -> nonneg_or_nan y = true ->
  nonneg_or_nan (x / y)%num = true.
Proof.
  intros Hx Hy.
  destruct (nonneg_or_nan_cases x Hx) as [->|Hx']; [reflexivity|].
  destruct (nonneg_or_nan_cases y Hy) as [->|Hy'];
    [destruct x; reflexivity|].
  clear Hx Hy.
  destruct x as [[|]|[|]| |[|] mx ex], y as [[|]|[|]| |[|] my ey];
    cbn [nonneg] in Hx', Hy'; try discriminate; try reflexivity.
  apply nonneg_is_nonneg_or_nan.
  apply (div_nonneg (S754_finite false mx ex) (S754_finite false my ey));
    reflexivity.
Qed.

Lemma round_nonneg_or_nan (x : number) :
  nonneg_or_nan x = true -> nonneg_or_nan (round x) = true.
Proof.
  intros Hx. destruct (nonneg_or_nan_cases x Hx) as [->|Hx']; [reflexivity|].
  apply nonneg_is_nonneg_or_nan, round_nonneg, Hx'.
Qed.

Lemma to6fR_nonneg_or_nan (x : number) :
  nonneg_or_nan x = true -> nonneg_or_nan (to6fR x) = true.
Proof.
  intros Hx. destruct (nonneg_or_nan_cases x Hx) as [->|Hx']; [reflexivity|].
  apply nonneg_is_nonneg_or_nan, to6fR_nonneg, Hx'.
Qed.

(** Whatever non-negative size and download count are given, missing ones
    included, the two figures of the weekly report that the condensed
    report reads are [NaN] or not negative. *)
Lemma report_nonneg_or_nan (contributions : table) (sizeKb downloads : number) :
  nonneg_or_nan (totalCo2PerGb _gridIntensities contributions) = true ->
  nonneg_or_nan sizeKb = true ->
  nonneg_or_nan downloads = true ->
  let r := emissionPerWeek_with contributions sizeKb downloads in
  nonneg_or_nan (kg r) = true /\ nonneg_or_nan (report_consumedkWh r) = true.
Proof.
  intros Htot Hs Hd r.
  assert (Hgb : nonneg_or_nan (sizeGb sizeKb) = true)
    by (apply div_nonneg_or_nan; [exact Hs|reflexivity]).
  unfold r, emissionPerWeek_with, calculateCO2Emissions.
  cbn [kg report_consumedkWh totalCo2EmissionsWeekKg consumedkWh].
  split; apply to6fR_nonneg_or_nan.
  - apply div_nonneg_or_nan; [|reflexivity].
    apply mul_nonneg_or_nan; [|exact Hd].
    apply mul_nonneg_or_nan; [exact Hgb|exact Htot].
  - apply mul_nonneg_or_nan; [|exact Hd].
    apply mul_nonneg_or_nan; [exact Hgb|reflexivity].
Qed.

Lemma of_option_nonneg_or_nan (o : option number) :
  (forall x, o = Some x -> nonneg_or_nan x = true) ->
  nonneg_or_nan (of_option o) = true.
Proof. destruct o as [x|]; intros H; [apply H; reflexivity|reflexivity]. Qed.

Section EndToEnd.

Variable contributions : table.
Variable npm_stat : string -> string -> string -> settled StatValue.
Variable fetch_details : string -> string -> settled DetailsValue.

Hypothesis blend_ok :
  nonneg_or_nan (totalCo2PerGb _gridIntensities contributions) = true.

Hypothesis sizes_ok :
  forall name version dv sz,
    fetch_details name version = Fulfilled dv -> size dv = Some sz ->
    nonneg_or_nan sz = true.

Hypothesis downloads_ok :
  forall name start end_ sv dl,
    npm_stat name start end_ = Fulfilled sv -> downloads sv = Some dl ->
    nonneg_or_nan dl = true.

Lemma item_figures_nonneg_or_nan (timespan : Timespan) (ignoreDownloads : bool)
    (l : Listing) :
  let r := item (emissionPerWeek_with contributions) (stat_in npm_stat timespan)
             fetch_details ignoreDownloads l in
  nonneg_or_nan (package_kg r) = true /\ nonneg_or_nan (package_kWh r) = true.
Proof.
  unfold item, on_settled, package_kg, package_kWh.
  destruct (fetch_details (listing_name l) (version_of l)) as [dv|reason] eqn:Hd.
  - assert (Hsize : nonneg_or_nan (of_option (size dv) / of_Z 1000)%num = true).
    { apply div_nonneg_or_nan; [|reflexivity].
      apply of_option_nonneg_or_nan. intros sz Hsz.
      eapply sizes_ok; eassumption. }
    destruct (stat_in npm_stat timespan (listing_name l)) as [sv|sreason] eqn:Hs;
      cbn [set_stat set_error set_details set_emissionsPerWeek emissionsPerWeek stat
           stat_downloads];
      apply report_nonneg_or_nan; try exact blend_ok; try exact Hsize;
      destruct ignoreDownloads; try reflexivity.
    apply of_option_nonneg_or_nan. intros dl Hdl.
    unfold stat_in in Hs. eapply downloads_ok; eassumption.
  - destruct (stat_in npm_stat timespan (listing_name l)); split; reflexivity.
Qed.


End EndToEnd.

